(** * toshy: the KWin script [toshy-dbus-notifyactivewindow] (KDE 6)

    A shallow embedding of [contents/code/main.js] and the properties of
    its only function, [notifyActiveWindow].

    The script is JavaScript run by the window manager's script engine.
    It is modelled over a small store-based semantics of the JavaScript
    values it can be handed: primitives, and ordinary objects with data
    properties and a prototype chain.  The three host primitives the
    script calls ([console.log], [callDBus] and the [connect] method of
    the [workspace.windowActivated] signal) are recorded in the host
    state as traces.

    Scope of the object model: properties are data properties (no
    accessors, no proxies), and the only callable object is the built-in
    [Object.prototype.hasOwnProperty]. *)

From Stdlib Require Import ZArith String List DecimalString.
From Stdlib Require Import Floats.SpecFloat.
From stdpp Require Import gmap strings.

Import ListNotations.
Local Open Scope string_scope.

(** ** JavaScript values *)

Definition loc := positive.

(** A Number is an IEEE 754 double, given by its specification-level
    form; a String is a sequence of code units, one character each. *)
Inductive value :=
| JUndefined
| JNull
| JBoolean (b : bool)
| JNumber (x : spec_float)
| JBigInt (z : Z)
| JString (s : string)
| JSymbol (id : positive)
| JObject (l : loc).

(** The [[Call]] internal slot: which built-in a function object runs. *)
Inductive native := HasOwnProperty.

Record object := Object {
  properties : gmap string value;   (* own data properties *)
  prototype : option loc;           (* [[Prototype]], None for null *)
  call : option native              (* [[Call]], None when not callable *)
}.

(** The prototypes that wrap a primitive when a property is read off it. *)
Record realm := Realm {
  BooleanPrototype : loc;
  NumberPrototype : loc;
  BigIntPrototype : loc;
  StringPrototype : loc;
  SymbolPrototype : loc
}.

(** ** The host *)

(** One [callDBus] invocation, as the script issued it. *)
Record dbus_call := DBusCall {
  service : string;
  path : string;
  interface : string;
  method : string;
  arguments : list value
}.

(** The functions the script declares. *)
Inductive function := NotifyActiveWindow.

Record host := Host {
  heap : gmap loc object;
  intrinsics : realm;
  console : list (list value);      (* one entry per console.log call *)
  dbus : list dbus_call;            (* one entry per callDBus call *)
  windowActivated : list function   (* slots connected to the signal *)
}.

(** ** Completions and the script monad *)

Inductive error := TypeError.

Inductive completion (A : Type) :=
| Normal (a : A)
| Throw (e : error).
Arguments Normal {A} a.
Arguments Throw {A} e.

Definition js (A : Type) : Type := host -> completion A * host.

Definition ret {A} (a : A) : js A := fun σ => (Normal a, σ).

Definition throw {A} (e : error) : js A := fun σ => (Throw e, σ).

Definition bind {A B} (m : js A) (k : A -> js B) : js B :=
  fun σ =>
    match m σ with
    | (Normal a, σ') => k a σ'
    | (Throw e, σ') => (Throw e, σ')
    end.

(** A read-only operation of the semantics, run in the current state. *)
Definition observe {A} (f : host -> completion A) : js A :=
  fun σ => (f σ, σ).

Notation "'let!' x ':=' m 'in' k" := (bind m (fun x => k))
  (at level 10, x name, m at level 100, k at level 200).
Notation "m ';;' k" := (bind m (fun _ => k))
  (at level 100, k at level 200, right associativity).

(** ** Abstract operations of the language *)

(** ToBoolean: the falsy values are undefined, null, false, +0, -0, NaN,
    0n and the empty string. *)
Definition ToBoolean (v : value) : bool :=
  match v with
  | JUndefined | JNull => false
  | JBoolean b => b
  | JNumber (S754_zero _) | JNumber S754_nan => false
  | JNumber _ => true
  | JBigInt z => negb (Z.eqb z 0)
  | JString EmptyString => false
  | JString _ => true
  | JSymbol _ | JObject _ => true
  end.

Definition number_of_nat (n : nat) : spec_float :=
  match N.of_nat n with
  | N0 => S754_zero false
  | Npos p => S754_finite false p 0
  end.

(** The array index a property key denotes, when it is the canonical
    decimal spelling of one. *)
Definition array_index (k : string) : option nat :=
  match NilZero.uint_of_string k with
  | Some u =>
      let i := Nat.of_uint u in
      if String.eqb (NilZero.string_of_uint (Nat.to_uint i)) k
      then Some i else None
  | None => None
  end.

(** Own properties of a String wrapper: [length] and the code units. *)
Definition string_own_property (s k : string) : option value :=
  if String.eqb k "length" then Some (JNumber (number_of_nat (String.length s)))
  else match array_index k with
       | Some i =>
           match String.get i s with
           | Some c => Some (JString (String c EmptyString))
           | None => None
           end
       | None => None
       end.

(** [[GetOwnProperty]] of the object a value is (or is wrapped into). *)
Definition own_property (σ : host) (v : value) (k : string) : option value :=
  match v with
  | JObject l =>
      match heap σ !! l with
      | Some o => properties o !! k
      | None => None
      end
  | JString s => string_own_property s k
  | _ => None
  end.

(** [[GetPrototypeOf]] of the object a value is (or is wrapped into). *)
Definition prototype_of (σ : host) (v : value) : option loc :=
  match v with
  | JObject l =>
      match heap σ !! l with
      | Some o => prototype o
      | None => None
      end
  | JBoolean _ => Some (BooleanPrototype (intrinsics σ))
  | JNumber _ => Some (NumberPrototype (intrinsics σ))
  | JBigInt _ => Some (BigIntPrototype (intrinsics σ))
  | JString _ => Some (StringPrototype (intrinsics σ))
  | JSymbol _ => Some (SymbolPrototype (intrinsics σ))
  | JUndefined | JNull => None
  end.

(** Property lookup along the prototype chain starting at object [l].
    A chain has no cycle, so it is no longer than the heap has objects:
    [fuel] bounds the walk. *)
Fixpoint chain_get (fuel : nat) (h : gmap loc object) (l : loc) (k : string)
  : value :=
  match fuel with
  | O => JUndefined
  | S fuel' =>
      match h !! l with
      | None => JUndefined
      | Some o =>
          match properties o !! k with
          | Some v => v
          | None =>
              match prototype o with
              | Some p => chain_get fuel' h p k
              | None => JUndefined
              end
          end
      end
  end.

(** The objects a lookup from [l] visits, in order, within [fuel]. *)
Fixpoint chain (fuel : nat) (h : gmap loc object) (l : loc) : list loc :=
  match fuel with
  | O => []
  | S fuel' =>
      match h !! l with
      | None => []
      | Some o =>
          l :: match prototype o with
               | Some p => chain fuel' h p
               | None => []
               end
      end
  end.

(** No object occurs twice along the prototype chain from [l]. *)
Definition acyclic (h : gmap loc object) (l : loc) : Prop :=
  forall fuel, NoDup (chain fuel h l).

(** GetV: reading property [k] off value [v]. *)
Definition GetV (σ : host) (v : value) (k : string) : completion value :=
  match v with
  | JUndefined | JNull => Throw TypeError
  | _ =>
      match own_property σ v k with
      | Some x => Normal x
      | None =>
          match prototype_of σ v with
          | Some p => Normal (chain_get (size (heap σ)) (heap σ) p k)
          | None => Normal JUndefined
          end
      end
  end.

(** Object.prototype.hasOwnProperty, called on [this] with key [k]. *)
Definition Object_prototype_hasOwnProperty (this : value) (k : string)
  : js value :=
  observe (fun σ =>
    match this with
    | JUndefined | JNull => Throw TypeError
    | _ =>
        match own_property σ this k with
        | Some _ => Normal (JBoolean true)
        | None => Normal (JBoolean false)
        end
    end).

(** Calling what a property lookup returned as a method of [this]. *)
Definition Call (f this : value) (k : string) : js value :=
  match f with
  | JObject l =>
      fun σ =>
        match heap σ !! l with
        | Some o =>
            match call o with
            | Some HasOwnProperty => Object_prototype_hasOwnProperty this k σ
            | None => (Throw TypeError, σ)
            end
        | None => (Throw TypeError, σ)
        end
  | _ => throw TypeError
  end.

(** The expression [this.hasOwnProperty(k)] for a string literal [k]. *)
Definition hasOwnProperty (this : value) (k : string) : js value :=
  let! f := observe (fun σ => GetV σ this "hasOwnProperty") in
  Call f this k.

(** ** Host primitives *)

(** The three ways the script changes the host. *)
Definition logged (σ : host) (entry : list value) : host :=
  Host (heap σ) (intrinsics σ) (console σ ++ [entry]) (dbus σ)
       (windowActivated σ).

Definition sent (σ : host) (c : dbus_call) : host :=
  Host (heap σ) (intrinsics σ) (console σ) (dbus σ ++ [c])
       (windowActivated σ).

Definition connected (σ : host) (f : function) : host :=
  Host (heap σ) (intrinsics σ) (console σ) (dbus σ)
       (windowActivated σ ++ [f]).

Definition console_log (args : list value) : js value :=
  fun σ => (Normal JUndefined, logged σ args).

Definition callDBus (svc pth ifc mth : string) (args : list value) : js value :=
  fun σ => (Normal JUndefined, sent σ (DBusCall svc pth ifc mth args)).

(** [workspace.windowActivated.connect(f)] *)
Definition workspace_windowActivated_connect (f : function) : js value :=
  fun σ => (Normal JUndefined, connected σ f).

(** ** The script *)

(** [window.hasOwnProperty(k) ? window.k : "UNDEF"], which the script
    writes out once for each of the three attributes. *)
Definition attribute (window : value) (k : string) : js value :=
  let! present := hasOwnProperty window k in
  if ToBoolean present
  then observe (fun σ => GetV σ window k)
  else ret (JString "UNDEF").

Definition notifyActiveWindow (window : value) : js value :=
  if negb (ToBoolean window) then
    console_log [JString "The client object is null"];;
    ret JUndefined
  else
    let! caption := attribute window "caption" in
    let! resourceClass := attribute window "resourceClass" in
    let! resourceName := attribute window "resourceName" in
    callDBus
      "org.toshy.Toshy"
      "/org/toshy/Toshy"
      "org.toshy.Toshy"
      "NotifyActiveWindow"
      [caption; resourceClass; resourceName];;
    ret JUndefined.

(** The script body, run once when the script is loaded. *)
Definition main : js value :=
  workspace_windowActivated_connect NotifyActiveWindow.

(** ** The host's event dispatch *)

Definition call_function (f : function) (window : value) : js value :=
  match f with
  | NotifyActiveWindow => notifyActiveWindow window
  end.

(** One activation event: the host calls every connected slot, in
    connection order, with the activated window; an exception a slot
    throws ends that slot only. *)
Definition activate (window : value) (σ : host) : host :=
  fold_left (fun s f => snd (call_function f window s)) (windowActivated σ) σ.

Definition activations (windows : list value) (σ : host) : host :=
  fold_left (fun s w => activate w s) windows σ.

(** ** Window handles *)

Definition attribute_names : list string :=
  ["caption"; "resourceClass"; "resourceName"].

(** [v.hasOwnProperty] resolves to the built-in of Object.prototype. *)
Definition inherits_hasOwnProperty (σ : host) (v : value) : bool :=
  match GetV σ v "hasOwnProperty" with
  | Normal (JObject f) =>
      match heap σ !! f with
      | Some o =>
          match call o with
          | Some HasOwnProperty => true
          | None => false
          end
      | None => false
      end
  | _ => false
  end.

(** A window handle: a live object [o] of the heap that answers
    [hasOwnProperty] the way ordinary objects do. *)
Definition window_handle (σ : host) (w : value) (o : object) : Prop :=
  exists l, w = JObject l /\ heap σ !! l = Some o /\
            inherits_hasOwnProperty σ w = true.

Definition is_string (v : value) : Prop := exists s, v = JString s.

(** The data model types the three attributes as strings: whichever of
    them [w] has as an own property holds one. *)
Definition string_attributes (σ : host) (w : value) : Prop :=
  forall k v,
    In k attribute_names -> own_property σ w k = Some v -> is_string v.

(** The call the handler issues, given the three arguments. *)
Definition NotifyActiveWindow_call (args : list value) : dbus_call :=
  DBusCall "org.toshy.Toshy" "/org/toshy/Toshy" "org.toshy.Toshy"
           "NotifyActiveWindow" args.

(** The payload as the specification words it: the attribute when the
    handle has it, the sentinel otherwise. *)
Definition payload_entry (o : object) (k : string) : value :=
  default (JString "UNDEF") (properties o !! k).

(** The three outcomes of an invocation on an arbitrary value. *)
Inductive outcome (σ : host) (w : value) : completion value * host -> Prop :=
| outcome_null :
    ToBoolean w = false ->
    outcome σ w (Normal JUndefined,
                 logged σ [JString "The client object is null"])
| outcome_throw :
    ToBoolean w = true ->
    outcome σ w (Throw TypeError, σ)
| outcome_call args :
    ToBoolean w = true ->
    Forall2 (fun k a => own_property σ w k = Some a \/
                        own_property σ w k = None /\ a = JString "UNDEF")
            attribute_names args ->
    outcome σ w (Normal JUndefined, sent σ (NotifyActiveWindow_call args)).

(** ** A concrete host *)

Module Sample.

Definition ObjectPrototype : loc := 1%positive.
Definition hasOwnProperty_fn : loc := 2%positive.
Definition FunctionPrototype : loc := 3%positive.
(** A prototype that itself carries a caption. *)
Definition decorated : loc := 9%positive.

Definition base_heap : gmap loc object :=
  list_to_map
    [ (ObjectPrototype,
        Object {[ "hasOwnProperty" := JObject hasOwnProperty_fn ]} None None);
      (hasOwnProperty_fn,
        Object ∅ (Some FunctionPrototype) (Some HasOwnProperty));
      (FunctionPrototype, Object ∅ (Some ObjectPrototype) None);
      (4%positive, Object ∅ (Some ObjectPrototype) None);
      (5%positive, Object ∅ (Some ObjectPrototype) None);
      (6%positive, Object ∅ (Some ObjectPrototype) None);
      (7%positive, Object ∅ (Some ObjectPrototype) None);
      (8%positive, Object ∅ (Some ObjectPrototype) None);
      (decorated, Object {[ "caption" := JString "Inherited" ]}
                         (Some ObjectPrototype) None) ].

Definition base_realm : realm :=
  Realm 4%positive 5%positive 6%positive 7%positive 8%positive.

(** A host whose heap holds [o] at location 10, nothing logged, nothing
    sent, nothing connected. *)
Definition with_window (o : object) : host :=
  Host (<[10%positive := o]> base_heap) base_realm [] [] [].

Definition window : value := JObject 10%positive.

Definition plain (props : list (string * value)) : object :=
  Object (list_to_map props) (Some ObjectPrototype) None.

Definition konsole : object :=
  plain [ ("caption", JString "Terminal");
          ("resourceClass", JString "org.kde.konsole");
          ("resourceName", JString "konsole") ].

Definition only_caption : object := plain [ ("caption", JString "Foo") ].

Definition empty_caption : object :=
  plain [ ("caption", JString "");
          ("resourceClass", JString "org.kde.konsole");
          ("resourceName", JString "konsole") ].

(** No caption of its own, but one on its prototype; the other two
    attributes are own properties holding undefined and null. *)
Definition odd : object :=
  Object (list_to_map [ ("resourceClass", JUndefined);
                        ("resourceName", JNull) ])
         (Some decorated) None.

(** An object with no prototype: it has no [hasOwnProperty] method. *)
Definition bare : object :=
  Object (list_to_map [ ("caption", JString "Foo") ]) None None.

End Sample.


(** ** Traces of an invocation *)

(** The payload of the call for [w]: per attribute, the own property
    when [w] has it and the sentinel when not. *)
Definition payload (σ : host) (w : value) : list value :=
  map (fun k => default (JString "UNDEF") (own_property σ w k))
      attribute_names.

(** The calls one invocation on [w] adds to the host's list. *)
Definition issued (σ : host) (w : value) : list dbus_call :=
  drop (length (dbus σ)) (dbus (snd (notifyActiveWindow w σ))).

(** The entries one invocation on [w] adds to the host's log. *)
Definition entries (σ : host) (w : value) : list (list value) :=
  drop (length (console σ)) (console (snd (notifyActiveWindow w σ))).

(** ** More handles *)

Module Variants.

(** [only_caption] with the sentinel spelled out as the value of the
    two attributes it lacks, and one more property. *)
Definition spelled_out : object :=
  Sample.plain [ ("caption", JString "Foo");
                 ("resourceClass", JString "UNDEF");
                 ("resourceName", JString "UNDEF");
                 ("pid", JString "4711") ].

(** An object that shadows [hasOwnProperty] with a string. *)
Definition shadowing : object :=
  Sample.plain [ ("caption", JString "Foo");
                 ("hasOwnProperty", JString "yes") ].

(** A host that holds [konsole] at location 10 and [only_caption] at
    location 11; nothing logged, sent or connected yet. *)
Definition two_windows : host :=
  Host (<[11%positive := Sample.only_caption]>
          (<[10%positive := Sample.konsole]> Sample.base_heap))
       Sample.base_realm [] [] [].

Definition first_window : value := JObject 10%positive.
Definition second_window : value := JObject 11%positive.

End Variants.

(** * Properties *)

(** ** Prototype chains and fuel *)

(** A walk that ended before its fuel did gives the lookup its result:
    any fuel that covers the walk gives the same. *)
Lemma chain_get_covered m : forall f h l k,
  length (chain m h l) < m -> length (chain m h l) <= f ->
  chain_get f h l k = chain_get m h l k.
Proof.
  induction m as [|m IH]; intros f h l k Hlt Hle; [simpl in Hlt; lia|].
  simpl in *. destruct (h !! l) as [o|] eqn:Hl.
  - destruct f as [|f]; [simpl in Hle; lia|].
    simpl. rewrite Hl. destruct (properties o !! k); [reflexivity|].
    destruct (prototype o) as [p|]; [|reflexivity].
    simpl in Hlt, Hle. apply IH; lia.
  - destruct f; simpl; [reflexivity|by rewrite Hl].
Qed.

Lemma chain_live m : forall h l x,
  x ∈ chain m h l -> is_Some (h !! x).
Proof.
  induction m as [|m IH]; intros h l x Hx; simpl in Hx;
    [by apply elem_of_nil in Hx|].
  destruct (h !! l) as [o|] eqn:Hl; [|by apply elem_of_nil in Hx].
  apply elem_of_cons in Hx as [->|Hx]; [by eexists|].
  destruct (prototype o) as [p|]; [by eapply IH|by apply elem_of_nil in Hx].
Qed.

(** A chain without a cycle is no longer than the heap has objects. *)
Lemma chain_length m h l :
  NoDup (chain m h l) -> length (chain m h l) <= size h.
Proof.
  intros Hnd. rewrite <- size_dom. unfold size, set_size. simpl.
  apply submseteq_length, NoDup_submseteq; [exact Hnd|].
  intros x Hx. apply elem_of_elements, elem_of_dom. by eapply chain_live.
Qed.

(** The fuel [GetV] gives a lookup is enough: on a chain without a
    cycle, no larger fuel finds anything else. *)
Lemma chain_get_fuel h l k n :
  acyclic h l -> size h <= n ->
  chain_get n h l k = chain_get (size h) h l k.
Proof.
  intros Hacyclic Hn.
  pose proof (chain_length (S n) h l (Hacyclic (S n))) as Hlen.
  rewrite (chain_get_covered (S n) n), (chain_get_covered (S n) (size h));
    [reflexivity|lia..].
Qed.

(** ** What a single attribute read does *)

Lemma GetV_own σ w k v :
  own_property σ w k = Some v -> GetV σ w k = Normal v.
Proof.
  intros Hown. unfold GetV. rewrite Hown.
  destruct w; try reflexivity; discriminate Hown.
Qed.

(** On any value, reading an attribute either throws, leaving the host
    as it was, or yields the own property when there is one and the
    sentinel when there is none; the host is the same afterwards. *)
Lemma attribute_cases σ w k :
  attribute w k σ = (Throw TypeError, σ) \/
  exists a, attribute w k σ = (Normal a, σ) /\
            (own_property σ w k = Some a \/
             own_property σ w k = None /\ a = JString "UNDEF").
Proof.
  unfold attribute, hasOwnProperty, bind, observe.
  destruct (GetV σ w "hasOwnProperty") as [f|[]]; [|by left].
  destruct f; try (by left). simpl.
  destruct (heap σ !! l) as [fo|]; [|by left].
  destruct (call fo) as [[]|]; [|by left].
  unfold Object_prototype_hasOwnProperty, observe.
  destruct (own_property σ w k) as [a|] eqn:Hown.
  - right. exists a. split; [|by left].
    pose proof (GetV_own _ _ _ _ Hown) as Hget.
    destruct w; try discriminate Hown;
      cbv beta iota; unfold ToBoolean; cbv iota; by rewrite Hget.
  - destruct w; try (by left);
      right; exists (JString "UNDEF"); split; try reflexivity; by right.
Qed.

(** On a window handle the read never throws. *)
Lemma attribute_handle σ w o k :
  window_handle σ w o ->
  attribute w k σ = (Normal (payload_entry o k), σ).
Proof.
  intros (l & -> & Hl & Hin).
  unfold attribute, hasOwnProperty, bind, observe.
  unfold inherits_hasOwnProperty in Hin.
  destruct (GetV σ (JObject l) "hasOwnProperty") as [f|]; [|discriminate].
  destruct f; try discriminate. simpl.
  destruct (heap σ !! l0) as [fo|]; [|discriminate].
  destruct (call fo) as [[]|]; [|discriminate].
  unfold Object_prototype_hasOwnProperty, observe, payload_entry.
  simpl. rewrite Hl.
  destruct (properties o !! k) as [v|] eqn:Hk; simpl; [|reflexivity].
  unfold GetV, own_property. by rewrite Hl, Hk.
Qed.

(** ** What one invocation does *)

(** The handler on a window handle: it returns normally, and the host
    differs by exactly one call carrying the payload. *)
Lemma notifyActiveWindow_handle σ w o :
  window_handle σ w o ->
  notifyActiveWindow w σ =
    (Normal JUndefined,
     sent σ (NotifyActiveWindow_call (map (payload_entry o) attribute_names))).
Proof.
  intros Hw. pose proof Hw as (l & -> & _ & _).
  unfold notifyActiveWindow.
  change (negb (ToBoolean (JObject l))) with false. cbv iota.
  unfold bind at 1. rewrite (attribute_handle _ _ _ "caption" Hw).
  unfold bind at 1. rewrite (attribute_handle _ _ _ "resourceClass" Hw).
  unfold bind at 1. rewrite (attribute_handle _ _ _ "resourceName" Hw).
  reflexivity.
Qed.

(** The handler on a falsy value. *)
Lemma notifyActiveWindow_falsy_run σ w :
  ToBoolean w = false ->
  notifyActiveWindow w σ =
    (Normal JUndefined, logged σ [JString "The client object is null"]).
Proof. intros Hw. unfold notifyActiveWindow. by rewrite Hw. Qed.

Lemma notifyActiveWindow_outcome σ w :
  outcome σ w (notifyActiveWindow w σ).
Proof.
  destruct (ToBoolean w) eqn:Hw.
  2:{ rewrite (notifyActiveWindow_falsy_run _ _ Hw). by constructor. }
  unfold notifyActiveWindow. rewrite Hw.
  change (negb true) with false. cbv iota.
  unfold bind at 1.
  destruct (attribute_cases σ w "caption") as [->|(a1 & -> & H1)];
    [by constructor|].
  unfold bind at 1.
  destruct (attribute_cases σ w "resourceClass") as [->|(a2 & -> & H2)];
    [by constructor|].
  unfold bind at 1.
  destruct (attribute_cases σ w "resourceName") as [->|(a3 & -> & H3)];
    [by constructor|].
  apply (outcome_call σ w [a1; a2; a3]); [done|].
  unfold attribute_names.
  constructor; [exact H1|]. constructor; [exact H2|].
  constructor; [exact H3|]. constructor.
Qed.

(** Nothing but the two traces changes, whatever the argument. *)
Lemma notifyActiveWindow_keeps σ w :
  let σ' := snd (notifyActiveWindow w σ) in
  heap σ' = heap σ /\ intrinsics σ' = intrinsics σ /\
  windowActivated σ' = windowActivated σ.
Proof.
  destruct (notifyActiveWindow_outcome σ w); simpl; auto.
Qed.

(** A relation that holds of every attribute and its payload entry holds
    along the argument list. *)
Lemma payload_Forall2 (R : string -> value -> Prop) o :
  (forall k, In k attribute_names -> R k (payload_entry o k)) ->
  Forall2 R attribute_names (map (payload_entry o) attribute_names).
Proof.
  intros HR. apply Forall2_fmap_r, Forall_Forall2_diag, Forall_forall.
  intros k Hk. apply HR. by apply list_elem_of_In.
Qed.

Lemma window_handle_sample o :
  prototype o = Some Sample.ObjectPrototype ->
  properties o !! "hasOwnProperty" = None ->
  window_handle (Sample.with_window o) Sample.window o.
Proof.
  intros Hp Hk. exists 10%positive. split; [reflexivity|].
  split; [apply lookup_insert_eq|].
  unfold inherits_hasOwnProperty, GetV, own_property, prototype_of,
    Sample.window, Sample.with_window. simpl heap.
  rewrite lookup_insert_eq, Hk, Hp.
  destruct (size (<[10%positive:=o]> Sample.base_heap)) as [|n] eqn:Hn.
  - apply map_size_empty_inv in Hn.
    apply (f_equal (fun m => m !! 10%positive)) in Hn.
    rewrite lookup_insert_eq, lookup_empty in Hn. discriminate.
  - reflexivity.
Qed.

(** ** The handler on a window handle *)

(** C1. On every window handle that has the three attributes [caption],
    [resourceClass] and [resourceName], the handler returns normally and
    issues exactly one IPC call: the host afterwards is the host before
    with one [NotifyActiveWindow] call appended, whose arguments are the
    three attribute strings in the order caption, resourceClass,
    resourceName. *)
Theorem notifyActiveWindow_all_present σ w o (c rc rn : string) :
  window_handle σ w o ->
  properties o !! "caption" = Some (JString c) ->
  properties o !! "resourceClass" = Some (JString rc) ->
  properties o !! "resourceName" = Some (JString rn) ->
  notifyActiveWindow w σ =
    (Normal JUndefined,
     sent σ (NotifyActiveWindow_call [JString c; JString rc; JString rn])) /\
  dbus (snd (notifyActiveWindow w σ)) =
    (dbus σ ++
       [NotifyActiveWindow_call [JString c; JString rc; JString rn]])%list.
Proof.
  intros Hw Hc Hrc Hrn.
  rewrite (notifyActiveWindow_handle _ _ _ Hw).
  unfold attribute_names, payload_entry. simpl map.
  rewrite Hc, Hrc, Hrn. split; reflexivity.
Qed.

Lemma notifyActiveWindow_konsole :
  window_handle (Sample.with_window Sample.konsole) Sample.window
                Sample.konsole /\
  dbus (snd (notifyActiveWindow Sample.window
               (Sample.with_window Sample.konsole))) =
    [DBusCall "org.toshy.Toshy" "/org/toshy/Toshy" "org.toshy.Toshy"
              "NotifyActiveWindow"
              [JString "Terminal"; JString "org.kde.konsole";
               JString "konsole"]].
Proof.
  assert (Hw : window_handle (Sample.with_window Sample.konsole)
                 Sample.window Sample.konsole)
    by (apply window_handle_sample; reflexivity).
  split; [exact Hw|].
  apply (notifyActiveWindow_all_present
           (Sample.with_window Sample.konsole) Sample.window Sample.konsole
           "Terminal" "org.kde.konsole" "konsole" Hw);
    vm_compute; reflexivity.
Defined.

(** C2. On every window handle, the handler issues one call whose
    argument in each attribute's position is the literal ["UNDEF"] when
    the handle lacks that attribute, and the attribute's value, unchanged,
    when the handle has it. *)
Theorem notifyActiveWindow_missing_UNDEF σ w o :
  window_handle σ w o ->
  exists args,
    notifyActiveWindow w σ =
      (Normal JUndefined, sent σ (NotifyActiveWindow_call args)) /\
    Forall2 (fun k a =>
               match properties o !! k with
               | Some v => a = v
               | None => a = JString "UNDEF"
               end) attribute_names args.
Proof.
  intros Hw. eexists. split; [exact (notifyActiveWindow_handle _ _ _ Hw)|].
  apply payload_Forall2. intros k _. unfold payload_entry.
  by destruct (properties o !! k).
Qed.

(** The specification's example: only [caption = "Foo"] is present. *)
Lemma notifyActiveWindow_only_caption :
  window_handle (Sample.with_window Sample.only_caption) Sample.window
                Sample.only_caption /\
  exists args,
    notifyActiveWindow Sample.window
      (Sample.with_window Sample.only_caption) =
      (Normal JUndefined,
       sent (Sample.with_window Sample.only_caption)
            (NotifyActiveWindow_call args)) /\
    args = [JString "Foo"; JString "UNDEF"; JString "UNDEF"].
Proof.
  assert (Hw : window_handle (Sample.with_window Sample.only_caption)
                 Sample.window Sample.only_caption)
    by (apply window_handle_sample; reflexivity).
  split; [exact Hw|].
  destruct (notifyActiveWindow_missing_UNDEF _ _ _ Hw) as (args & Hrun & Hargs).
  exists args. split; [exact Hrun|].
  unfold attribute_names in Hargs.
  apply Forall2_cons_inv_l in Hargs as (a1 & r1 & H1 & Hargs & ->).
  apply Forall2_cons_inv_l in Hargs as (a2 & r2 & H2 & Hargs & ->).
  apply Forall2_cons_inv_l in Hargs as (a3 & r3 & H3 & Hargs & ->).
  apply Forall2_nil_inv_l in Hargs as ->.
  vm_compute in H1, H2, H3. by subst.
Defined.

(** C5. On every window handle, an attribute that is present and holds
    the empty string arrives as the empty string in its position: it is
    not replaced by ["UNDEF"].  Only absence triggers the default: in
    each position the argument is the attribute's value whenever the
    handle has the attribute, whatever the value, and the sentinel
    exactly when the handle has no such attribute. *)
Theorem notifyActiveWindow_empty_string_kept σ w o :
  window_handle σ w o ->
  exists args,
    notifyActiveWindow w σ =
      (Normal JUndefined, sent σ (NotifyActiveWindow_call args)) /\
    Forall2 (fun k a =>
               (properties o !! k = Some (JString "") ->
                a = JString "" /\ a <> JString "UNDEF") /\
               match properties o !! k with
               | Some v => a = v
               | None => a = JString "UNDEF"
               end)
            attribute_names args.
Proof.
  intros Hw. eexists. split; [exact (notifyActiveWindow_handle _ _ _ Hw)|].
  apply payload_Forall2. intros k _. unfold payload_entry. split.
  - intros Hk. rewrite Hk. split; [reflexivity|discriminate].
  - by destruct (properties o !! k).
Qed.

(** A handle whose caption is the empty string, the other two
    attributes present: the call carries the empty string first and the
    other two values after it. *)
Lemma notifyActiveWindow_empty_caption :
  window_handle (Sample.with_window Sample.empty_caption) Sample.window
                Sample.empty_caption /\
  exists args,
    dbus (snd (notifyActiveWindow Sample.window
                 (Sample.with_window Sample.empty_caption))) =
      [NotifyActiveWindow_call args] /\
    args = [JString ""; JString "org.kde.konsole"; JString "konsole"].
Proof.
  assert (Hw : window_handle (Sample.with_window Sample.empty_caption)
                 Sample.window Sample.empty_caption)
    by (apply window_handle_sample; reflexivity).
  split; [exact Hw|].
  destruct (notifyActiveWindow_empty_string_kept _ _ _ Hw)
    as (args & Hrun & Hargs).
  exists args. split; [by rewrite Hrun|].
  unfold attribute_names in Hargs.
  apply Forall2_cons_inv_l in Hargs as (a1 & r1 & [H1 _] & Hargs & ->).
  apply Forall2_cons_inv_l in Hargs as (a2 & r2 & [_ H2] & Hargs & ->).
  apply Forall2_cons_inv_l in Hargs as (a3 & r3 & [_ H3] & Hargs & ->).
  apply Forall2_nil_inv_l in Hargs as ->.
  destruct (H1 eq_refl) as [-> _].
  vm_compute in H2, H3. by subst.
Defined.

(** C10. Presence is own-property existence.  On every window handle, an
    attribute that is an own property holding [undefined] or [null] is
    forwarded as that value, and an attribute the handle has no own
    property for is replaced by ["UNDEF"] whatever value reading it along
    the prototype chain would give. *)
Theorem notifyActiveWindow_own_property_only σ w o :
  window_handle σ w o ->
  exists args,
    notifyActiveWindow w σ =
      (Normal JUndefined, sent σ (NotifyActiveWindow_call args)) /\
    Forall2 (fun k a =>
               (properties o !! k = Some JUndefined -> a = JUndefined) /\
               (properties o !! k = Some JNull -> a = JNull) /\
               (forall v, properties o !! k = None ->
                          GetV σ w k = Normal v -> a = JString "UNDEF"))
            attribute_names args.
Proof.
  intros Hw. eexists. split; [exact (notifyActiveWindow_handle _ _ _ Hw)|].
  apply payload_Forall2. intros k _. unfold payload_entry.
  repeat split; [intros -> ..|intros v -> _]; reflexivity.
Qed.

(** A handle whose caption lives on its prototype only, and whose other
    two attributes are own properties holding undefined and null. *)
Lemma notifyActiveWindow_odd :
  window_handle (Sample.with_window Sample.odd) Sample.window Sample.odd /\
  GetV (Sample.with_window Sample.odd) Sample.window "caption" =
    Normal (JString "Inherited") /\
  exists args,
    dbus (snd (notifyActiveWindow Sample.window
                 (Sample.with_window Sample.odd))) =
      [NotifyActiveWindow_call args] /\
    args = [JString "UNDEF"; JUndefined; JNull].
Proof.
  assert (Hw : window_handle (Sample.with_window Sample.odd)
                 Sample.window Sample.odd).
  { exists 10%positive. repeat split; vm_compute; reflexivity. }
  assert (Hget : GetV (Sample.with_window Sample.odd) Sample.window "caption" =
                 Normal (JString "Inherited")) by (vm_compute; reflexivity).
  split; [exact Hw|]. split; [exact Hget|].
  destruct (notifyActiveWindow_own_property_only _ _ _ Hw)
    as (args & Hrun & Hargs).
  exists args. split; [by rewrite Hrun|].
  unfold attribute_names in Hargs.
  apply Forall2_cons_inv_l in Hargs as (a1 & r1 & (_ & _ & H1) & Hargs & ->).
  apply Forall2_cons_inv_l in Hargs as (a2 & r2 & (H2 & _) & Hargs & ->).
  apply Forall2_cons_inv_l in Hargs as (a3 & r3 & (_ & H3 & _) & Hargs & ->).
  apply Forall2_nil_inv_l in Hargs as ->.
  rewrite (H1 _ eq_refl Hget), (H2 eq_refl), (H3 eq_refl). reflexivity.
Defined.

(** ** The handler on null and on the other falsy values *)

(** C3 (as amended). On [null] the handler returns normally, issues no
    IPC call and appends exactly one entry to the log, whose message is
    ["The client object is null"], with a capital T. *)
Theorem notifyActiveWindow_null σ :
  notifyActiveWindow JNull σ =
    (Normal JUndefined, logged σ [JString "The client object is null"]) /\
  dbus (snd (notifyActiveWindow JNull σ)) = dbus σ /\
  console (snd (notifyActiveWindow JNull σ)) =
    (console σ ++ [[JString "The client object is null"]])%list.
Proof. repeat split. Qed.

(** C3 as first stated names the message ["the client object is null"]:
    the entry the handler logs on [null] is not that string. *)
Lemma notifyActiveWindow_null_message :
  console (snd (notifyActiveWindow JNull
                  (Sample.with_window Sample.konsole))) =
    [[JString "The client object is null"]] /\
  [[JString "The client object is null"]] <>
    [[JString "the client object is null"]].
Proof. split; [reflexivity|discriminate]. Qed.

(** ToBoolean is false on exactly the falsy values of the language. *)
Lemma ToBoolean_false w :
  ToBoolean w = false <->
  w = JUndefined \/ w = JNull \/ w = JBoolean false \/
  (exists s, w = JNumber (S754_zero s)) \/ w = JNumber S754_nan \/
  w = JBigInt 0 \/ w = JString "".
Proof.
  split.
  - destruct w as [| |[]|[]|z|[]| |]; simpl; intros H; try discriminate H;
      eauto 10.
    apply negb_false_iff, Z.eqb_eq in H. subst. eauto 10.
  - intros [->|[->|[->|[[s ->]|[->|[->| ->]]]]]]; reflexivity.
Qed.

(** C9. On every falsy argument the handler does what it does on [null]:
    it returns normally, appends one entry to the log and issues no IPC
    call. *)
Theorem notifyActiveWindow_falsy σ w :
  ToBoolean w = false ->
  notifyActiveWindow w σ = notifyActiveWindow JNull σ /\
  console (snd (notifyActiveWindow w σ)) =
    (console σ ++ [[JString "The client object is null"]])%list /\
  dbus (snd (notifyActiveWindow w σ)) = dbus σ.
Proof.
  intros Hw. rewrite (notifyActiveWindow_falsy_run _ _ Hw).
  repeat split.
Qed.

Lemma notifyActiveWindow_undefined :
  ToBoolean JUndefined = false /\
  notifyActiveWindow JUndefined (Sample.with_window Sample.konsole) =
    notifyActiveWindow JNull (Sample.with_window Sample.konsole) /\
  dbus (snd (notifyActiveWindow JUndefined
               (Sample.with_window Sample.konsole))) = [].
Proof.
  split; [reflexivity|].
  destruct (notifyActiveWindow_falsy (Sample.with_window Sample.konsole)
              JUndefined eq_refl) as (Hnull & _ & Hdbus).
  split; [exact Hnull|exact Hdbus].
Defined.

(** ** The call's addressing *)

(** C4. Every IPC call an invocation issues goes to bus name
    [org.toshy.Toshy], object path [/org/toshy/Toshy], interface
    [org.toshy.Toshy], method [NotifyActiveWindow], and carries exactly
    three arguments; they are strings on a handle whose attributes are
    strings, as the data model types them. *)
Theorem callDBus_addressing_fixed σ w :
  exists issued,
    dbus (snd (notifyActiveWindow w σ)) = (dbus σ ++ issued)%list /\
    Forall (fun c =>
              service c = "org.toshy.Toshy" /\
              path c = "/org/toshy/Toshy" /\
              interface c = "org.toshy.Toshy" /\
              method c = "NotifyActiveWindow" /\
              exists a1 a2 a3,
                arguments c = [a1; a2; a3] /\
                (string_attributes σ w ->
                 is_string a1 /\ is_string a2 /\ is_string a3))
           issued.
Proof.
  destruct (notifyActiveWindow_outcome σ w) as [Hw|Hw|args Hw Hargs].
  - exists []. split; [by rewrite app_nil_r|constructor].
  - exists []. split; [by rewrite app_nil_r|constructor].
  - exists [NotifyActiveWindow_call args]. split; [reflexivity|].
    constructor; [|constructor]. repeat split.
    unfold attribute_names in Hargs.
    apply Forall2_cons_inv_l in Hargs as (a1 & r1 & H1 & Hargs & ->).
    apply Forall2_cons_inv_l in Hargs as (a2 & r2 & H2 & Hargs & ->).
    apply Forall2_cons_inv_l in Hargs as (a3 & r3 & H3 & Hargs & ->).
    apply Forall2_nil_inv_l in Hargs as ->.
    exists a1, a2, a3. split; [reflexivity|]. intros Hty.
    assert (Hstr : forall k a,
               In k attribute_names ->
               own_property σ w k = Some a \/
               own_property σ w k = None /\ a = JString "UNDEF" ->
               is_string a).
    { intros k a Hk [Hown|[_ ->]]; [exact (Hty k a Hk Hown)|by eexists]. }
    repeat split; (eapply Hstr; [|eassumption]); simpl; auto.
Qed.

Lemma string_attributes_konsole :
  string_attributes (Sample.with_window Sample.konsole) Sample.window.
Proof.
  intros k v [<-|[<-|[<-|[]]]] Hv; vm_compute in Hv;
    injection Hv as <-; by eexists.
Defined.

Lemma callDBus_addressing_konsole :
  exists c,
    dbus (snd (notifyActiveWindow Sample.window
                 (Sample.with_window Sample.konsole))) = [c] /\
    service c = "org.toshy.Toshy" /\
    path c = "/org/toshy/Toshy" /\
    interface c = "org.toshy.Toshy" /\
    method c = "NotifyActiveWindow" /\
    exists a1 a2 a3,
      arguments c = [a1; a2; a3] /\
      is_string a1 /\ is_string a2 /\ is_string a3.
Proof.
  destruct (callDBus_addressing_fixed (Sample.with_window Sample.konsole)
              Sample.window) as (issued & Hrun & Hall).
  vm_compute in Hrun.
  destruct issued as [|c [|c' rest]]; try discriminate Hrun.
  exists c. split; [vm_compute; exact Hrun|].
  apply Forall_cons in Hall as [(Hs & Hp & Hi & Hm & a1 & a2 & a3 & Ha & Hstr) _].
  repeat (split; [assumption|]).
  exists a1, a2, a3. split; [exact Ha|].
  exact (Hstr string_attributes_konsole).
Defined.

(** ** Independence of invocations *)

(** What the semantics reads of a host is its heap and its intrinsics:
    hosts that agree on both answer alike. *)
Section Agreement.

Variables σ σ' : host.
Hypothesis same_heap : heap σ' = heap σ.
Hypothesis same_intrinsics : intrinsics σ' = intrinsics σ.

Lemma own_property_agree v k : own_property σ' v k = own_property σ v k.
Proof. unfold own_property. by rewrite same_heap. Qed.

Lemma GetV_agree v k : GetV σ' v k = GetV σ v k.
Proof.
  unfold GetV, prototype_of.
  by rewrite own_property_agree, same_heap, same_intrinsics.
Qed.

Lemma window_handle_agree w o :
  window_handle σ w o -> window_handle σ' w o.
Proof.
  intros (l & -> & Hl & Hin). exists l. split; [reflexivity|].
  unfold inherits_hasOwnProperty in *.
  by rewrite GetV_agree, same_heap.
Qed.

End Agreement.

(** C6. Invoking the handler twice in succession on the same window
    handle issues the same call twice: the second invocation appends a
    second copy, nothing is deduplicated or cached.  The call depends on
    the heap only: a host with another history of log entries, calls and
    connections issues the same one. *)
Theorem notifyActiveWindow_twice σ w o :
  window_handle σ w o ->
  exists c,
    notifyActiveWindow w σ = (Normal JUndefined, sent σ c) /\
    notifyActiveWindow w (sent σ c) = (Normal JUndefined, sent (sent σ c) c) /\
    dbus (sent (sent σ c) c) = (dbus σ ++ [c; c])%list /\
    forall σ',
      heap σ' = heap σ -> intrinsics σ' = intrinsics σ ->
      notifyActiveWindow w σ' = (Normal JUndefined, sent σ' c).
Proof.
  intros Hw.
  exists (NotifyActiveWindow_call (map (payload_entry o) attribute_names)).
  assert (Hany : forall σ',
             heap σ' = heap σ -> intrinsics σ' = intrinsics σ ->
             notifyActiveWindow w σ' =
               (Normal JUndefined,
                sent σ' (NotifyActiveWindow_call
                           (map (payload_entry o) attribute_names)))).
  { intros σ' Hh Hi. apply notifyActiveWindow_handle.
    by apply (window_handle_agree σ σ'). }
  split; [by apply Hany|]. split; [by apply Hany|]. split; [|exact Hany].
  simpl. by rewrite <- app_assoc.
Qed.

Lemma notifyActiveWindow_twice_konsole :
  window_handle (Sample.with_window Sample.konsole) Sample.window
                Sample.konsole /\
  exists c σ1 σ2,
    notifyActiveWindow Sample.window (Sample.with_window Sample.konsole) =
      (Normal JUndefined, σ1) /\
    notifyActiveWindow Sample.window σ1 = (Normal JUndefined, σ2) /\
    dbus σ2 = [c; c].
Proof.
  assert (Hw : window_handle (Sample.with_window Sample.konsole)
                 Sample.window Sample.konsole)
    by (apply window_handle_sample; reflexivity).
  split; [exact Hw|].
  destruct (notifyActiveWindow_twice _ _ _ Hw) as (c & H1 & H2 & Hd & _).
  exists c, (sent (Sample.with_window Sample.konsole) c),
    (sent (sent (Sample.with_window Sample.konsole) c) c).
  split; [exact H1|]. split; [exact H2|exact Hd].
Defined.

(** ** The handle and the host are left as they were *)

(** C8. An invocation, whatever its argument and however it ends,
    changes neither the heap nor the intrinsics nor the signal's
    connections: every own property and every property read of every
    value, the window handle among them, is afterwards what it was.  The
    log and the list of issued calls are all that differs. *)
Theorem notifyActiveWindow_frame σ w :
  let σ' := snd (notifyActiveWindow w σ) in
  heap σ' = heap σ /\
  intrinsics σ' = intrinsics σ /\
  windowActivated σ' = windowActivated σ /\
  forall v k,
    own_property σ' v k = own_property σ v k /\ GetV σ' v k = GetV σ v k.
Proof.
  intros σ'. destruct (notifyActiveWindow_keeps σ w) as (Hh & Hi & Hc).
  fold σ' in Hh, Hi, Hc. repeat split; try assumption.
  - by apply own_property_agree.
  - by apply GetV_agree.
Qed.

(** ** Registration *)

Lemma activate_connections w σ :
  windowActivated (activate w σ) = windowActivated σ.
Proof.
  unfold activate.
  generalize (windowActivated σ) at 1 as slots. intros slots.
  revert σ. induction slots as [|f slots IH]; intros σ; [reflexivity|].
  simpl. rewrite IH. destruct f. apply notifyActiveWindow_keeps.
Qed.

Lemma activations_connections ws σ :
  windowActivated (activations ws σ) = windowActivated σ.
Proof.
  revert σ. induction ws as [|w ws IH]; intros σ; [reflexivity|].
  unfold activations in *. simpl. rewrite IH. apply activate_connections.
Qed.

(** C7. Loading the script connects the handler to the window-activation
    signal once: the connection list grows by that one slot, and no
    sequence of activation events that follows changes it. *)
Theorem main_connects_once σ windows :
  main σ = (Normal JUndefined, connected σ NotifyActiveWindow) /\
  windowActivated (snd (main σ)) =
    (windowActivated σ ++ [NotifyActiveWindow])%list /\
  windowActivated (activations windows (snd (main σ))) =
    windowActivated (snd (main σ)) /\
  length (windowActivated (activations windows (snd (main σ)))) =
    S (length (windowActivated σ)).
Proof.
  split; [reflexivity|]. split; [reflexivity|].
  rewrite activations_connections. split; [reflexivity|].
  simpl. rewrite length_app. simpl. lia.
Qed.

(** Once the script is loaded on a host with no other slot, an
    activation event is one invocation of the handler. *)
Lemma activate_loaded σ w :
  windowActivated σ = [] ->
  activate w (snd (main σ)) = snd (notifyActiveWindow w (snd (main σ))).
Proof. intros Hfresh. unfold activate. simpl. by rewrite Hfresh. Qed.

(** ** Values that are no window handle *)

(** An object without [hasOwnProperty] on its prototype chain: the
    method call throws, and no call is issued. *)
Example notifyActiveWindow_bare_throws :
  notifyActiveWindow Sample.window (Sample.with_window Sample.bare) =
    (Throw TypeError, Sample.with_window Sample.bare).
Proof. vm_compute. reflexivity. Qed.

(** A truthy primitive has none of the three attributes. *)
Example notifyActiveWindow_string_primitive :
  dbus (snd (notifyActiveWindow (JString "konsole")
               (Sample.with_window Sample.konsole))) =
    [NotifyActiveWindow_call
       [JString "UNDEF"; JString "UNDEF"; JString "UNDEF"]].
Proof. vm_compute. reflexivity. Qed.

(** * Further properties of the handler *)

(** ** The closed form of an invocation on a truthy value *)

Lemma attribute_truthy σ w k :
  ToBoolean w = true ->
  attribute w k σ =
    if inherits_hasOwnProperty σ w
    then (Normal (default (JString "UNDEF") (own_property σ w k)), σ)
    else (Throw TypeError, σ).
Proof.
  intros Hw. unfold attribute, hasOwnProperty, bind, observe,
    inherits_hasOwnProperty.
  destruct (GetV σ w "hasOwnProperty") as [f|[]]; [|reflexivity].
  destruct f; try reflexivity. simpl Call.
  destruct (heap σ !! l) as [fo|]; [|reflexivity].
  destruct (call fo) as [[]|]; [|reflexivity].
  unfold Object_prototype_hasOwnProperty, observe.
  destruct (own_property σ w k) as [a|] eqn:Hown.
  - pose proof (GetV_own _ _ _ _ Hown) as Hget.
    destruct w; try discriminate Hw;
      cbv beta iota; unfold ToBoolean; cbv iota; by rewrite Hget.
  - destruct w; try discriminate Hw; reflexivity.
Qed.

Lemma notifyActiveWindow_truthy σ w :
  ToBoolean w = true ->
  notifyActiveWindow w σ =
    if inherits_hasOwnProperty σ w
    then (Normal JUndefined, sent σ (NotifyActiveWindow_call (payload σ w)))
    else (Throw TypeError, σ).
Proof.
  intros Hw. unfold notifyActiveWindow. rewrite Hw.
  change (negb true) with false. cbv iota.
  unfold bind at 1. rewrite (attribute_truthy _ _ "caption" Hw).
  destruct (inherits_hasOwnProperty σ w) eqn:Hin; [|reflexivity].
  unfold bind at 1. rewrite (attribute_truthy _ _ "resourceClass" Hw), Hin.
  unfold bind at 1. rewrite (attribute_truthy _ _ "resourceName" Hw), Hin.
  reflexivity.
Qed.

(** What an invocation adds to the two traces. *)
Lemma issued_closed σ w :
  issued σ w =
    if ToBoolean w && inherits_hasOwnProperty σ w
    then [NotifyActiveWindow_call (payload σ w)] else [].
Proof.
  unfold issued. destruct (ToBoolean w) eqn:Hw.
  - rewrite (notifyActiveWindow_truthy _ _ Hw).
    destruct (inherits_hasOwnProperty σ w); simpl andb; cbv iota.
    + simpl snd. simpl dbus. by rewrite drop_app_length.
    + simpl snd. by rewrite drop_all.
  - rewrite (notifyActiveWindow_falsy_run _ _ Hw). simpl. by rewrite drop_all.
Qed.

Lemma entries_closed σ w :
  entries σ w =
    if ToBoolean w then [] else [[JString "The client object is null"]].
Proof.
  unfold entries. destruct (ToBoolean w) eqn:Hw.
  - rewrite (notifyActiveWindow_truthy _ _ Hw).
    destruct (inherits_hasOwnProperty σ w); simpl; by rewrite drop_all.
  - rewrite (notifyActiveWindow_falsy_run _ _ Hw). simpl snd. simpl console.
    by rewrite drop_app_length.
Qed.

Lemma notifyActiveWindow_traces σ w :
  dbus (snd (notifyActiveWindow w σ)) = (dbus σ ++ issued σ w)%list /\
  console (snd (notifyActiveWindow w σ)) = (console σ ++ entries σ w)%list.
Proof.
  rewrite issued_closed, entries_closed. destruct (ToBoolean w) eqn:Hw.
  - rewrite (notifyActiveWindow_truthy _ _ Hw).
    destruct (inherits_hasOwnProperty σ w); simpl;
      by rewrite ?app_nil_r.
  - rewrite (notifyActiveWindow_falsy_run _ _ Hw). simpl.
    by rewrite app_nil_r.
Qed.

(** The traces of an invocation are read off heap and intrinsics. *)
Lemma traces_agree σ σ' w :
  heap σ' = heap σ -> intrinsics σ' = intrinsics σ ->
  issued σ' w = issued σ w /\ entries σ' w = entries σ w.
Proof.
  intros Hh Hi. rewrite !issued_closed, !entries_closed.
  split; [|reflexivity].
  unfold inherits_hasOwnProperty, payload.
  rewrite (GetV_agree σ σ' Hh Hi), Hh. destruct (_ && _); [|reflexivity].
  do 2 f_equal. apply map_ext. intros k.
  by rewrite (own_property_agree σ σ' Hh).
Qed.

(** ** Errors and values that are not objects *)

(** X1. On a truthy argument whose [hasOwnProperty] lookup does not give
    the built-in function (no such property along the prototype chain, or
    a value that cannot be called), the handler throws a TypeError at the
    first attribute: nothing is logged, no call is issued, the host is
    what it was. *)
Theorem notifyActiveWindow_throws σ w :
  ToBoolean w = true ->
  inherits_hasOwnProperty σ w = false ->
  notifyActiveWindow w σ = (Throw TypeError, σ).
Proof.
  intros Hw Hin. by rewrite (notifyActiveWindow_truthy _ _ Hw), Hin.
Qed.

Lemma notifyActiveWindow_shadowing_throws :
  ToBoolean Sample.window = true /\
  inherits_hasOwnProperty (Sample.with_window Variants.shadowing)
                          Sample.window = false /\
  notifyActiveWindow Sample.window (Sample.with_window Variants.shadowing) =
    (Throw TypeError, Sample.with_window Variants.shadowing).
Proof.
  assert (Hin : inherits_hasOwnProperty
                  (Sample.with_window Variants.shadowing) Sample.window =
                false) by (vm_compute; reflexivity).
  split; [reflexivity|]. split; [exact Hin|].
  exact (notifyActiveWindow_throws _ Sample.window eq_refl Hin).
Defined.

(** A value that is no object has none of the three attributes. *)
Lemma primitive_payload σ w :
  (forall l, w <> JObject l) ->
  payload σ w = [JString "UNDEF"; JString "UNDEF"; JString "UNDEF"].
Proof.
  intros Hprim. destruct w; try reflexivity. by destruct (Hprim l).
Qed.

(** X2. On a truthy primitive (true, a non-zero number or bigint, a
    non-empty string, a symbol) that reaches the built-in
    [hasOwnProperty] through its wrapper's prototype, the handler issues
    one call, and its three arguments are all the sentinel. *)
Theorem notifyActiveWindow_primitive σ w :
  (forall l, w <> JObject l) ->
  ToBoolean w = true ->
  inherits_hasOwnProperty σ w = true ->
  notifyActiveWindow w σ =
    (Normal JUndefined,
     sent σ (NotifyActiveWindow_call
               [JString "UNDEF"; JString "UNDEF"; JString "UNDEF"])).
Proof.
  intros Hprim Hw Hin.
  by rewrite (notifyActiveWindow_truthy _ _ Hw), Hin,
    (primitive_payload _ _ Hprim).
Qed.

Lemma notifyActiveWindow_primitive_string :
  ToBoolean (JString "konsole") = true /\
  inherits_hasOwnProperty (Sample.with_window Sample.konsole)
                          (JString "konsole") = true /\
  dbus (snd (notifyActiveWindow (JString "konsole")
               (Sample.with_window Sample.konsole))) =
    [NotifyActiveWindow_call
       [JString "UNDEF"; JString "UNDEF"; JString "UNDEF"]].
Proof.
  assert (Hin : inherits_hasOwnProperty (Sample.with_window Sample.konsole)
                  (JString "konsole") = true) by (vm_compute; reflexivity).
  split; [reflexivity|]. split; [exact Hin|].
  rewrite (notifyActiveWindow_primitive (Sample.with_window Sample.konsole)
             (JString "konsole") (fun l H => eq_ind (JString "konsole")
                (fun v => match v with JObject _ => False | _ => True end)
                I _ H) eq_refl Hin).
  reflexivity.
Defined.

(** ** What one invocation adds *)

(** X3. Over the values of this model (primitives, and objects with
    data properties only, where nothing but the built-in [hasOwnProperty]
    can be called; a user-defined function or an accessor is outside it),
    one invocation appends to the two traces and never rewrites them: it
    adds one log entry exactly when its argument is falsy, one call
    exactly when its argument is truthy and its [hasOwnProperty] lookup
    gives the built-in, and nothing else; it throws exactly when its
    argument is truthy and the lookup gives nothing that can be called,
    and then the host is what it was. *)
Theorem notifyActiveWindow_effects σ w :
  let r := notifyActiveWindow w σ in
  console σ `prefix_of` console (snd r) /\
  dbus σ `prefix_of` dbus (snd r) /\
  length (console (snd r)) =
    (length (console σ) + if ToBoolean w then 0 else 1)%nat /\
  length (dbus (snd r)) =
    (length (dbus σ) +
     if ToBoolean w && inherits_hasOwnProperty σ w then 1 else 0)%nat /\
  (fst r = Throw TypeError <->
   ToBoolean w = true /\ inherits_hasOwnProperty σ w = false) /\
  (fst r = Throw TypeError -> snd r = σ).
Proof.
  intros r. subst r.
  destruct (notifyActiveWindow_traces σ w) as [Hd Hc].
  rewrite Hd, Hc, issued_closed, entries_closed, !length_app.
  split; [by apply prefix_app_r|]. split; [by apply prefix_app_r|].
  destruct (ToBoolean w) eqn:Hw.
  - rewrite (notifyActiveWindow_truthy _ _ Hw).
    destruct (inherits_hasOwnProperty σ w); simpl;
      repeat split; try done; try lia; intros [_ ?]; done.
  - rewrite (notifyActiveWindow_falsy_run _ _ Hw). simpl.
    repeat split; try done; try lia; intros [? _]; done.
Qed.

(** ** The call depends on the payload only *)

(** X4. Two window handles, in the same host or not, whose three
    attributes agree make the handler issue the same call, whatever else
    the handles hold; and an attribute that is absent is not told apart
    from one that is present with the value ["UNDEF"]. *)
Theorem notifyActiveWindow_payload_only σ w o σ' w' o' :
  window_handle σ w o ->
  window_handle σ' w' o' ->
  (forall k, In k attribute_names ->
             properties o !! k = properties o' !! k \/
             properties o !! k = None /\
             properties o' !! k = Some (JString "UNDEF")) ->
  exists c,
    notifyActiveWindow w σ = (Normal JUndefined, sent σ c) /\
    notifyActiveWindow w' σ' = (Normal JUndefined, sent σ' c).
Proof.
  intros Hw Hw' Hsame.
  exists (NotifyActiveWindow_call (map (payload_entry o) attribute_names)).
  split; [exact (notifyActiveWindow_handle _ _ _ Hw)|].
  rewrite (notifyActiveWindow_handle _ _ _ Hw'). do 3 f_equal.
  apply map_ext_in. intros k Hk. unfold payload_entry.
  destruct (Hsame k Hk) as [->|[-> ->]]; reflexivity.
Qed.

Lemma notifyActiveWindow_spelled_out :
  exists c,
    dbus (snd (notifyActiveWindow Sample.window
                 (Sample.with_window Sample.only_caption))) = [c] /\
    dbus (snd (notifyActiveWindow Sample.window
                 (Sample.with_window Variants.spelled_out))) = [c].
Proof.
  assert (Hw : window_handle (Sample.with_window Sample.only_caption)
                 Sample.window Sample.only_caption)
    by (apply window_handle_sample; reflexivity).
  assert (Hw' : window_handle (Sample.with_window Variants.spelled_out)
                  Sample.window Variants.spelled_out)
    by (apply window_handle_sample; reflexivity).
  assert (Hsame : forall k, In k attribute_names ->
             properties Sample.only_caption !! k =
               properties Variants.spelled_out !! k \/
             properties Sample.only_caption !! k = None /\
             properties Variants.spelled_out !! k = Some (JString "UNDEF")).
  { intros k [<-|[<-|[<-|[]]]]; vm_compute; auto. }
  destruct (notifyActiveWindow_payload_only _ _ _ _ _ _ Hw Hw' Hsame)
    as (c & H1 & H2).
  exists c. rewrite H1, H2. split; reflexivity.
Defined.

(** ** Sequences of activation events *)

Lemma activate_single σ w :
  windowActivated σ = [NotifyActiveWindow] ->
  activate w σ = snd (notifyActiveWindow w σ).
Proof. intros Hslot. unfold activate. by rewrite Hslot. Qed.

(** With the handler as the only slot, a run of events adds to the
    traces what each event adds on a host [σ] with the same heap. *)
Lemma activations_traces σ ws : forall σ',
  heap σ' = heap σ -> intrinsics σ' = intrinsics σ ->
  windowActivated σ' = [NotifyActiveWindow] ->
  dbus (activations ws σ') = (dbus σ' ++ flat_map (issued σ) ws)%list /\
  console (activations ws σ') = (console σ' ++ flat_map (entries σ) ws)%list.
Proof.
  induction ws as [|w ws IH]; intros σ' Hh Hi Hslot.
  - simpl. by rewrite !app_nil_r.
  - change (activations (w :: ws) σ') with (activations ws (activate w σ')).
    rewrite (activate_single _ _ Hslot).
    destruct (notifyActiveWindow_keeps σ' w) as (Hh' & Hi' & Hslot').
    destruct (notifyActiveWindow_traces σ' w) as [Hd Hc].
    destruct (traces_agree σ σ' w Hh Hi) as [Hissued Hentries].
    destruct (IH (snd (notifyActiveWindow w σ'))) as [IHd IHc];
      [congruence..|].
    rewrite IHd, IHc, Hd, Hc, Hissued, Hentries. simpl flat_map.
    by rewrite <- !app_assoc.
Qed.

(** X5. Over the values of this model (primitives, and objects with
    data properties only, where nothing but the built-in [hasOwnProperty]
    can be called), and with the handler as the only slot of the signal:
    the calls and log entries a sequence of activation events produces
    are, in event order, those each event produces alone on the starting
    host, so no event changes what a later one does. *)
Theorem activations_independent σ ws :
  windowActivated σ = [NotifyActiveWindow] ->
  dbus (activations ws σ) = (dbus σ ++ flat_map (issued σ) ws)%list /\
  console (activations ws σ) = (console σ ++ flat_map (entries σ) ws)%list.
Proof. intros Hslot. by apply activations_traces. Qed.

Lemma activations_three_events :
  windowActivated (snd (main Variants.two_windows)) = [NotifyActiveWindow] /\
  dbus (activations
          [Variants.first_window; JNull; Variants.second_window]
          (snd (main Variants.two_windows))) =
    [NotifyActiveWindow_call
       [JString "Terminal"; JString "org.kde.konsole"; JString "konsole"];
     NotifyActiveWindow_call
       [JString "Foo"; JString "UNDEF"; JString "UNDEF"]] /\
  console (activations
             [Variants.first_window; JNull; Variants.second_window]
             (snd (main Variants.two_windows))) =
    [[JString "The client object is null"]].
Proof.
  split; [reflexivity|].
  destruct (activations_independent (snd (main Variants.two_windows))
              [Variants.first_window; JNull; Variants.second_window]
              eq_refl) as [Hd Hc].
  rewrite Hd, Hc. split; vm_compute; reflexivity.
Defined.

Lemma issued_handle σ w o :
  window_handle σ w o ->
  issued σ w =
    [NotifyActiveWindow_call (map (payload_entry o) attribute_names)] /\
  entries σ w = [].
Proof.
  intros Hw. split.
  - unfold issued. rewrite (notifyActiveWindow_handle _ _ _ Hw).
    simpl snd. simpl dbus. by rewrite drop_app_length.
  - rewrite entries_closed. by destruct Hw as (l & -> & _).
Qed.

Lemma traces_handles σ (wos : list (value * object)) :
  Forall (fun wo => window_handle σ (fst wo) (snd wo)) wos ->
  flat_map (issued σ) (map fst wos) =
    map (fun wo => NotifyActiveWindow_call
                     (map (payload_entry (snd wo)) attribute_names)) wos /\
  flat_map (entries σ) (map fst wos) = [].
Proof.
  induction 1 as [|[w o] wos Hw _ [IHd IHc]]; [by split|].
  destruct (issued_handle _ _ _ Hw) as [Hi He].
  simpl in *. by rewrite Hi, He, IHd, IHc.
Qed.

(** X6. Once the script is loaded on a host with no other slot, a
    sequence of activations of window handles issues one call per event,
    in event order, each with the payload of its own handle, and logs
    nothing. *)
Theorem activations_one_call_each σ (wos : list (value * object)) :
  windowActivated σ = [] ->
  Forall (fun wo => window_handle σ (fst wo) (snd wo)) wos ->
  dbus (activations (map fst wos) (snd (main σ))) =
    (dbus σ ++
     map (fun wo => NotifyActiveWindow_call
                      (map (payload_entry (snd wo)) attribute_names))
         wos)%list /\
  console (activations (map fst wos) (snd (main σ))) = console σ.
Proof.
  intros Hfresh Hall.
  destruct (activations_traces σ (map fst wos) (snd (main σ)))
    as [Hd Hc]; [reflexivity|reflexivity|simpl; by rewrite Hfresh|].
  destruct (traces_handles σ wos Hall) as [Hi He].
  rewrite Hd, Hc, Hi, He. simpl. by rewrite app_nil_r.
Qed.

Lemma activations_two_windows :
  windowActivated Variants.two_windows = [] /\
  dbus (activations
          [Variants.second_window; Variants.first_window;
           Variants.second_window]
          (snd (main Variants.two_windows))) =
    [NotifyActiveWindow_call
       [JString "Foo"; JString "UNDEF"; JString "UNDEF"];
     NotifyActiveWindow_call
       [JString "Terminal"; JString "org.kde.konsole"; JString "konsole"];
     NotifyActiveWindow_call
       [JString "Foo"; JString "UNDEF"; JString "UNDEF"]] /\
  console (activations
             [Variants.second_window; Variants.first_window;
              Variants.second_window]
             (snd (main Variants.two_windows))) = [].
Proof.
  assert (H1 : window_handle Variants.two_windows Variants.first_window
                 Sample.konsole).
  { exists 10%positive. repeat split; vm_compute; reflexivity. }
  assert (H2 : window_handle Variants.two_windows Variants.second_window
                 Sample.only_caption).
  { exists 11%positive. repeat split; vm_compute; reflexivity. }
  assert (Hall : Forall (fun wo => window_handle Variants.two_windows
                                     (fst wo) (snd wo))
                   [(Variants.second_window, Sample.only_caption);
                    (Variants.first_window, Sample.konsole);
                    (Variants.second_window, Sample.only_caption)])
    by (repeat constructor; assumption).
  split; [reflexivity|].
  destruct (activations_one_call_each Variants.two_windows _ eq_refl Hall)
    as [Hd Hc].
  split; [etransitivity; [exact Hd|]|etransitivity; [exact Hc|]];
    vm_compute; reflexivity.
Defined.
